(** * SmartRetail: the inventory optimizer

    A shallow embedding of [src/agents/inventory_optimizer.py]: the classical
    order-quantity calculator ([calculate_optimal_order_quantity]), the state
    classifier ([state_to_key]), the tabular policy ([update_policy]) and the
    day-by-day simulation ([simulate_policy]).

    Numbers are modelled as the program has them: Python [float] and
    [np.float64] are IEEE binary64, here Rocq's primitive [float]; Python
    [int] is [Z].  The database is a snapshot of what each query returns, the
    global NumPy random generator is an explicit state threaded through every
    call that draws from it, and the Q-table is a [gmap] from state keys to
    the pair of action values.

    Three conventions.  [round] on a NumPy float returns a Python int and
    raises on NaN and on the infinities.  On synthesized demand the counts
    of a run are NumPy 64-bit integers; they are kept in [Z], which is what
    the program computes as long as the stock stays below 2^63.  A Python
    int that meets a float is converted to the nearest float first. *)

From Stdlib Require Import ZArith Floats List Lia Bool.
From stdpp Require Import gmap strings.

Set Warnings "-inexact-float".
Local Open Scope Z_scope.

(** ** Python and NumPy numerics *)

Module Py.

(** A computation inside a [try] block: a value, or the text [str(e)] of
    the exception it raised. *)
Inductive result (A : Type) : Type :=
| Ok (a : A)
| Raise (msg : string).
Arguments Ok {A} a.
Arguments Raise {A} msg.

Definition bind {A B} (r : result A) (k : A -> result B) : result B :=
  match r with
  | Ok a => k a
  | Raise msg => Raise msg
  end.

(** [float(n)] for a Python int: the nearest binary64, ties to even. *)
Definition float_of_Z (z : Z) : float :=
  SF2Prim (binary_normalize prec emax z 0 false).

(** The integer nearest to [m * 2^e], ties to the even one. *)
Definition nearest_even (m : positive) (e : Z) : Z :=
  match e with
  | Zneg p =>
      let d := 2 ^ Zpos p in
      let q := Zpos m / d in
      let r := Zpos m mod d in
      match 2 * r ?= d with
      | Lt => q
      | Gt => q + 1
      | Eq => if Z.even q then q else q + 1
      end
  | _ => Zpos m * 2 ^ e
  end.

(** [m * 2^e] cut towards zero. *)
Definition toward_zero (m : positive) (e : Z) : Z :=
  match e with
  | Zneg p => Zpos m / 2 ^ Zpos p
  | _ => Zpos m * 2 ^ e
  end.

(** [round(x)] with one argument: a Python int, half to even; NaN and the
    infinities raise. *)
Definition round (x : float) : result Z :=
  match Prim2SF x with
  | S754_nan => Raise "cannot convert float NaN to integer"
  | S754_infinity _ => Raise "cannot convert float infinity to integer"
  | S754_zero _ => Ok 0
  | S754_finite s m e => Ok (cond_Zopp s (nearest_even m e))
  end.

(** [max(a, b)] of the builtin: [b] only when [b > a]. *)
Definition max (a b : float) : float :=
  if PrimFloat.ltb a b then b else a.

(** [x > y] and [x < y] on floats, with Python's argument order. *)
Definition gt (x y : float) : bool := PrimFloat.ltb y x.
Definition lt (x y : float) : bool := PrimFloat.ltb x y.

End Py.

Module np.

(** [np.sqrt] on a float and on a Python int. *)
Definition sqrt (x : float) : float := PrimFloat.sqrt x.

(** Sum of a float64 array.  NumPy adds in blocks, this adds left to
    right; both are exact while the partial sums are integers below 2^53,
    which is the case for sums of unit counts. *)
Definition sum (xs : list float) : float :=
  fold_left PrimFloat.add xs 0%float.

Definition of_ints (l : list Z) : list float := map Py.float_of_Z l.

(** [np.mean(l)] of a list of ints. *)
Definition mean (l : list Z) : float :=
  (sum (of_ints l) / Py.float_of_Z (Z.of_nat (length l)))%float.

(** [np.std(l)]: the population standard deviation,
    [sqrt(mean((l - mean(l))**2))]. *)
Definition std (l : list Z) : float :=
  let m := mean l in
  let sq := map (fun x => let d := (x - m)%float in (d * d)%float) (of_ints l) in
  sqrt (sum sq / Py.float_of_Z (Z.of_nat (length l)))%float.

(** [np.maximum(1, x)] on one element: NaN goes through. *)
Definition maximum1 (x : float) : float :=
  if PrimFloat.is_nan x then x
  else if PrimFloat.ltb 1 x then x else 1%float.

(** [.astype(int)] on one element: cut towards zero; what does not fit
    in 64 bits becomes the smallest int64. *)
Definition astype_int (x : float) : Z :=
  match Prim2SF x with
  | S754_finite s m e =>
      let z := cond_Zopp s (Py.toward_zero m e) in
      if (- 2 ^ 63 <=? z) && (z <? 2 ^ 63) then z else - 2 ^ 63
  | S754_zero _ => 0
  | _ => - 2 ^ 63
  end.

End np.

Import Py (result, Ok, Raise).

(** ** The data the optimizer reads

    What each query of the two entry points returns for a product and a
    store.  [pricing_supplier] is the join of [pricing] and [suppliers] with
    the lowest supplier cost ([None]: the join is empty);
    [sales_last_30_days] the [units_sold] of the rows dated within the last
    thirty days, which [calculate_optimal_order_quantity] reads;
    [sales_latest_30] the [units_sold] of the thirty latest rows, latest
    first, which [simulate_policy] reads. *)

Record Database : Type := {
  pricing_supplier : Z -> option (float * float);
  sales_last_30_days : Z -> Z -> list Z;
  sales_latest_30 : Z -> Z -> list Z;
  inventory : Z -> Z -> option Z;
  min_lead_time : Z -> option Z
}.

Module sql.
(** [AVG(units_sold)]: NULL over no rows, else the sum over the count. *)
Definition avg (rows : list Z) : option float :=
  match rows with
  | [] => None
  | _ => Some (Py.float_of_Z (fold_left Z.add rows 0%Z)
               / Py.float_of_Z (Z.of_nat (length rows)))%float
  end.
End sql.

(** ** The optimizer object *)

Module Action.
Inductive t : Type := order | wait.

(** The string the program uses for the action. *)
Definition name (a : t) : string :=
  match a with order => "order" | wait => "wait" end.
End Action.

(** The inner dict [{"order": q, "wait": q}] of one state. *)
Module Q.
Record t : Type := mk { order : float; wait : float }.

Definition zero : t := mk 0 0.

Definition get (e : t) (a : Action.t) : float :=
  match a with Action.order => order e | Action.wait => wait e end.

Definition set (e : t) (a : Action.t) (v : float) : t :=
  match a with
  | Action.order => mk v (wait e)
  | Action.wait => mk (order e) v
  end.

(** [max(d.values())]: the values come in insertion order, order first. *)
Definition max_value (e : t) : float := Py.max (order e) (wait e).
End Q.

#[global] Instance Q_inhabited : Inhabited Q.t := populate Q.zero.

Module Opt.
Record t : Type := mk {
  holding_cost_rate : float;
  stockout_penalty : float;
  ordering_cost : float;
  learning_rate : float;
  discount_factor : float;
  exploration_rate : float;
  q_values : gmap string Q.t
}.

(** [__init__] *)
Definition init : t := mk 0.02 0.10 15.00 0.1 0.9 0.2 ∅.

Definition with_q_values (self : t) (q : gmap string Q.t) : t :=
  mk (holding_cost_rate self) (stockout_penalty self) (ordering_cost self)
     (learning_rate self) (discount_factor self) (exploration_rate self) q.
End Opt.

(** [state_to_key] *)
Definition state_to_key (stock_level : Z) (demand_level price_ratio : string) : string :=
  let stock_state :=
    if stock_level <? 5 then "very_low"
    else if stock_level <? 20 then "low"
    else if stock_level <? 50 then "medium_low"
    else if stock_level <? 100 then "medium"
    else if stock_level <? 200 then "medium_high"
    else "high" in
  stock_state +:+ "_" +:+ demand_level +:+ "_" +:+ price_ratio.

(** [update_policy]: both keys are entered with zeros on first sight, so the
    two subscriptions that follow always find their key. *)
Definition setdefault_zero (k : string) (q : gmap string Q.t) : gmap string Q.t :=
  match q !! k with
  | Some _ => q
  | None => <[k := Q.zero]> q
  end.

Definition update_policy (self : Opt.t) (state_key : string) (action : Action.t)
    (reward : float) (next_state_key : string) : Opt.t :=
  let q := setdefault_zero next_state_key (setdefault_zero state_key (Opt.q_values self)) in
  let current_q := Q.get (q !!! state_key) action in
  let max_next_q := Q.max_value (q !!! next_state_key) in
  let updated_q :=
    (current_q + Opt.learning_rate self
                 * (reward + Opt.discount_factor self * max_next_q - current_q))%float in
  Opt.with_q_values self (<[state_key := Q.set (q !!! state_key) action updated_q]> q).

(** ** What [calculate_optimal_order_quantity] returns *)

(** The full dict of a successful call. *)
Module Rec.
Record t : Type := mk {
  order_quantity : Z;
  reorder_point : Z;
  economic_order_quantity : Z;
  safety_stock : Z;
  avg_demand : float;
  lead_time : Z;
  current_stock : Z;
  should_order : bool;
  state_key : string
}.
End Rec.

(** Either the short dict
    [{"order_quantity": 0, "reorder_point": 0, "message": m}] or the full
    one. *)
Inductive OrderResult : Type :=
| NoOrder (message : string)
| Recommendation (r : Rec.t).

(** [d.get("reorder_point", 0)] and [d.get("economic_order_quantity", 0)]:
    the short dict has the first key with value 0 and lacks the second. *)
Definition get_reorder_point (d : OrderResult) : Z :=
  match d with
  | NoOrder _ => 0
  | Recommendation r => Rec.reorder_point r
  end.

Definition get_economic_order_quantity (d : OrderResult) : Z :=
  match d with
  | NoOrder _ => 0
  | Recommendation r => Rec.economic_order_quantity r
  end.

(** ** The classical quantities (EOQ, safety stock, reorder point) *)

Module Classical.
Record t : Type := mk {
  holding_cost : float;
  annual_demand : float;
  eoq : Z;
  safety_stock : Z;
  reorder_point : Z
}.
End Classical.

Definition classical_quantities (self : Opt.t) (cost avg_demand std_demand : float)
    (lead_time : Z) : result Classical.t :=
  let holding_cost := Py.max 0.001 (cost * Opt.holding_cost_rate self)%float in
  let annual_demand := (avg_demand * 365)%float in
  let eoq := np.sqrt ((2 * annual_demand * Opt.ordering_cost self) / holding_cost)%float in
  Py.bind (Py.round eoq) (fun eoq_rounded =>
  let eoq := Z.max 1 eoq_rounded in
  let service_factor := 1.96%float in
  let safety_stock :=
    (service_factor * std_demand * np.sqrt (Py.float_of_Z lead_time))%float in
  Py.bind (Py.round safety_stock) (fun safety_rounded =>
  let safety_stock := Z.max 0 safety_rounded in
  let reorder_point :=
    ((avg_demand * Py.float_of_Z lead_time) + Py.float_of_Z safety_stock)%float in
  Py.bind (Py.round reorder_point) (fun reorder_rounded =>
  let reorder_point := Z.max 1 reorder_rounded in
  Ok (Classical.mk holding_cost annual_demand eoq safety_stock reorder_point)))).

(** The demand estimate of [calculate_optimal_order_quantity]: the SQL
    average floored at 0.1, and the deviation of the rows, with a fallback
    when there are none. *)
Definition calc_avg_demand (avg : float) : float := Py.max 0.1 avg.

Definition calc_std_demand (sales_data : list Z) (avg_demand : float) : float :=
  match sales_data with
  | [] => Py.max 1 (avg_demand * 0.3)%float
  | _ => np.std sales_data
  end.

(** The demand estimate of [simulate_policy]. *)
Definition sim_demand_stats (demand_history : list Z) : float * float :=
  match demand_history with
  | [] => (10%float, 3%float)
  | _ => (np.mean demand_history, Py.max 1 (np.std demand_history))
  end.

Definition calc_demand_level (avg_demand std_demand : float) : string :=
  if Py.gt avg_demand 0 then
    if Py.gt (std_demand / avg_demand) 0.5 then "high"
    else if Py.lt (std_demand / avg_demand) 0.2 then "low"
    else "medium"
  else "medium".

Definition calc_price_ratio (price cost : float) : string :=
  if Py.gt cost 0 then
    if Py.gt (price / cost) 2 then "high"
    else if Py.lt (price / cost) 1.5 then "low"
    else "medium"
  else "medium".

(** The margin rule of [calculate_optimal_order_quantity]: the table
    changes the trigger's answer only past a lead of 10. *)
Definition blend_margin (e : Q.t) (should_order : bool) : bool :=
  let q_order := Q.order e in
  let q_wait := Q.wait e in
  if Py.gt q_order (q_wait + 10) then true
  else if Py.gt q_wait (q_order + 10) then false
  else should_order.

(** ** One day of the simulation: records and loop variables *)

Module Day.
Record t : Type := mk {
  day : Z;
  demand : Z;
  sold : Z;
  missed : Z;
  stock : Z;
  ordered : Z;
  revenue : float;
  profit : float;
  action : string;
  state : string
}.
End Day.

Module Sim.
(** The dict of a completed run. *)
Record t : Type := mk {
  total_profit : float;
  revenue : float;
  stockout_days : Z;
  service_level : float;
  holding_cost : float;
  ordering_cost : float;
  inventory_turnover : float;
  final_stock : Z;
  daily_results : list Day.t
}.
End Sim.

(** [{"error": msg}] or the result dict. *)
Inductive SimOutcome : Type :=
| SimError (error : string)
| SimResult (r : Sim.t).

(** The variables the day loop updates, with the optimizer whose table it
    mutates.  [stock_is_np] records whether [stock] has become a NumPy
    scalar (it does once a NumPy [sold] is subtracted from it): Python
    raises on a float division by zero, NumPy returns an infinity. *)
Module Loop.
Record t : Type := mk {
  self : Opt.t;
  stock : Z;
  total_profit : float;
  stockout_days : Z;
  holding_cost_total : float;
  ordering_cost_total : float;
  revenue_total : float;
  days_to_delivery : Z;
  pending_delivery : Z;
  daily_results : list Day.t;
  stock_is_np : bool
}.

Definition start (self : Opt.t) (current_stock : Z) : t :=
  mk self current_stock 0 0 0 0 0 0 0 [] false.

(** The three assignments of the delivery and of the order. *)
Definition set_position (s : t) (stock days_to_delivery pending_delivery : Z) : t :=
  mk (self s) stock (total_profit s) (stockout_days s) (holding_cost_total s)
     (ordering_cost_total s) (revenue_total s) days_to_delivery pending_delivery
     (daily_results s) (stock_is_np s).
End Loop.

(** The values fixed before the loop starts. *)
Module Run.
Record t : Type := mk {
  db : Database;
  product_id : Z;
  store_id : Z;
  days : Z;
  price : float;
  cost : float;
  mean_demand : float;
  lead_time : Z;
  daily_demand : list Z;
  demand_is_np : bool
}.
End Run.

(** Step 1 of a day: the countdown, and the arrival when it reaches 0. *)
Definition receive_delivery (s : Loop.t) : Loop.t :=
  if 0 <? Loop.days_to_delivery s then
    let days_to_delivery := Loop.days_to_delivery s - 1 in
    if days_to_delivery =? 0 then
      Loop.set_position s (Loop.stock s + Loop.pending_delivery s) days_to_delivery 0
    else
      Loop.set_position s (Loop.stock s) days_to_delivery (Loop.pending_delivery s)
  else s.

Definition sim_demand_level (demand : Z) (mean_demand : float) : string :=
  if Py.gt (Py.float_of_Z demand) (mean_demand * 1.2) then "high"
  else if Py.lt (Py.float_of_Z demand) (mean_demand * 0.8) then "low"
  else "medium".

Definition sim_price_ratio (price cost : float) : string :=
  if Py.gt price (cost * 2) then "high"
  else if Py.lt price (cost * 1.5) then "low"
  else "medium".

(** [l[:n]] *)
Definition py_prefix {A} (l : list A) (n : Z) : list A :=
  if 0 <=? n then firstn (Z.to_nat n) l
  else firstn (Z.to_nat (Z.of_nat (length l) + n)) l.

(** [l[i]] for an index in range. *)
Definition py_item (l : list Z) (i : Z) : Z := nth (Z.to_nat i) l 0.

(** ** The two entry points

    The global NumPy generator is a state [Gen] with its two draws:
    [random] is [np.random.random()], [standard_normal] the normal draw that
    [np.random.normal(loc, scale, size)] scales and shifts. *)

Section Optimizer.

Variable Gen : Type.
Variable random : Gen -> float * Gen.
Variable standard_normal : Gen -> float * Gen.

(** [np.random.normal(loc, scale, size)] *)
Fixpoint normal (loc scale : float) (size : nat) (g : Gen) : list float * Gen :=
  match size with
  | O => ([], g)
  | S n =>
      let '(z, g) := standard_normal g in
      let '(zs, g) := normal loc scale n g in
      ((loc + scale * z)%float :: zs, g)
  end.

(** [calculate_optimal_order_quantity].  The only statements that can
    raise are the three [round] calls; the [except] clause turns what they
    raise into the short dict.  The generator is drawn from only when the
    state key is in the table. *)
Definition calculate_optimal_order_quantity (self : Opt.t) (db : Database)
    (product_id store_id : Z) (g : Gen) : OrderResult * Gen :=
  match pricing_supplier db product_id with
  | None => (NoOrder "No pricing or supplier data", g)
  | Some (price, cost) =>
  match sql.avg (sales_last_30_days db product_id store_id) with
  | None => (NoOrder "Insufficient sales history", g)
  | Some avg =>
    let avg_demand := calc_avg_demand avg in
    let sales_data := sales_last_30_days db product_id store_id in
    let std_demand := calc_std_demand sales_data avg_demand in
    let current_stock := default 0 (inventory db product_id store_id) in
    let lead_time := default 7 (min_lead_time db product_id) in
    match classical_quantities self cost avg_demand std_demand lead_time with
    | Raise msg => (NoOrder ("Error: " +:+ msg), g)
    | Ok c =>
      let eoq := Classical.eoq c in
      let reorder_point := Classical.reorder_point c in
      let demand_level := calc_demand_level avg_demand std_demand in
      let price_ratio := calc_price_ratio price cost in
      let state_key := state_to_key current_stock demand_level price_ratio in
      let should_order := current_stock <=? reorder_point in
      let '(should_order, g) :=
        match Opt.q_values self !! state_key with
        | Some e =>
            let '(u, g) := random g in
            if Py.gt u (Opt.exploration_rate self)
            then (blend_margin e should_order, g)
            else (should_order, g)
        | None => (should_order, g)
        end in
      let order_quantity :=
        if should_order then Z.max 0 (eoq - current_stock + reorder_point) else 0 in
      (Recommendation
         (Rec.mk order_quantity reorder_point eoq (Classical.safety_stock c)
                 avg_demand lead_time current_stock should_order state_key), g)
    end
  end
  end.

(** The decision of one simulated day: the table's answer, when the key
    is known and the draw exceeds the exploration rate, else the
    trigger's. *)
Definition sim_should_order (self : Opt.t) (state_key : string)
    (should_order_eoq : bool) (g : Gen) : bool * Gen :=
  match Opt.q_values self !! state_key with
  | Some e =>
      let '(u, g) := random g in
      if Py.gt u (Opt.exploration_rate self)
      then (Py.gt (Q.order e) (Q.wait e), g)
      else (should_order_eoq, g)
  | None => (should_order_eoq, g)
  end.

(** The body of [for day in range(days)]. *)
Definition simulate_day (R : Run.t) (day : nat) (s : Loop.t) (g : Gen)
    : Loop.t * Gen :=
  let price := Run.price R in
  let cost := Run.cost R in
  let demand := py_item (Run.daily_demand R) (Z.of_nat day) in
  let s := receive_delivery s in
  let self := Loop.self s in
  let stock := Loop.stock s in
  let demand_level := sim_demand_level demand (Run.mean_demand R) in
  let price_ratio := sim_price_ratio price cost in
  let state_key := state_to_key stock demand_level price_ratio in
  let '(eoq_result, g) :=
    calculate_optimal_order_quantity self (Run.db R) (Run.product_id R) (Run.store_id R) g in
  let should_order_eoq :=
    (stock <=? get_reorder_point eoq_result) && (Loop.days_to_delivery s =? 0) in
  let '(should_order, g) := sim_should_order self state_key should_order_eoq g in
  let placing := should_order && (Loop.days_to_delivery s =? 0) in
  let order_quantity :=
    if placing then get_economic_order_quantity eoq_result else 0 in
  let days_to_delivery :=
    if placing then Run.lead_time R else Loop.days_to_delivery s in
  let pending_delivery :=
    if placing then order_quantity else Loop.pending_delivery s in
  let ordering_cost_total :=
    if placing then (Loop.ordering_cost_total s + Opt.ordering_cost self)%float
    else Loop.ordering_cost_total s in
  let action := if placing then Action.order else Action.wait in
  let sold := Z.min stock demand in
  let sold_is_np := if demand <? stock then Run.demand_is_np R else Loop.stock_is_np s in
  let missed := demand - sold in
  let stock := stock - sold in
  let revenue := (Py.float_of_Z sold * price)%float in
  let cogs := (Py.float_of_Z sold * cost)%float in
  let holding_cost :=
    (Py.float_of_Z stock * (cost * Opt.holding_cost_rate self / 365))%float in
  let stockout_cost := (Py.float_of_Z missed * (price * Opt.stockout_penalty self))%float in
  let day_profit := (revenue - cogs - holding_cost - stockout_cost)%float in
  let day_profit :=
    if placing then (day_profit - Opt.ordering_cost self)%float else day_profit in
  let record :=
    Day.mk (Z.of_nat day + 1) demand sold missed stock
           (if placing then order_quantity else 0)
           revenue day_profit (Action.name action) state_key in
  let next_demand :=
    py_item (Run.daily_demand R) (Z.min (Z.of_nat day + 1) (Run.days R - 1)) in
  let next_demand_level := sim_demand_level next_demand (Run.mean_demand R) in
  let next_state_key := state_to_key stock next_demand_level price_ratio in
  let reward := day_profit in
  (Loop.mk (update_policy self state_key action reward next_state_key)
           stock
           (Loop.total_profit s + day_profit)%float
           (if 0 <? missed then Loop.stockout_days s + 1 else Loop.stockout_days s)
           (Loop.holding_cost_total s + holding_cost)%float
           ordering_cost_total
           (Loop.revenue_total s + revenue)%float
           days_to_delivery
           pending_delivery
           (Loop.daily_results s ++ [record])
           (Loop.stock_is_np s || sold_is_np),
   g).

(** The loop variables and the generator after the first [n] days. *)
Fixpoint run_days (R : Run.t) (n : nat) (s : Loop.t) (g : Gen) : Loop.t * Gen :=
  match n with
  | O => (s, g)
  | S k => let '(s, g) := run_days R k s g in simulate_day R k s g
  end.

(** The demand of the run: the history when it covers the horizon, else
    normal draws floored at 1 and cut to integers. *)
Definition draw_daily_demand (demand_history : list Z) (mean_demand std_demand : float)
    (days : Z) (g : Gen) : list Z * bool * Gen :=
  if days <=? Z.of_nat (length demand_history) then
    (py_prefix demand_history days, false, g)
  else
    let '(xs, g) := normal mean_demand std_demand (Z.to_nat days) g in
    (map (fun x => np.astype_int (np.maximum1 x)) xs, true, g).

(** What [simulate_policy] does before the loop: [None] when the product
    has no pricing or supplier row, else the fixed values of the run, the
    stock it starts from, and the generator after the demand draws. *)
Definition prepare (db : Database) (product_id store_id days : Z) (g : Gen)
    : option (Run.t * Z * Gen) :=
  match pricing_supplier db product_id with
  | None => None
  | Some (price, cost) =>
      let demand_history := sales_latest_30 db product_id store_id in
      let '(mean_demand, std_demand) := sim_demand_stats demand_history in
      let current_stock := default 50 (inventory db product_id store_id) in
      let lead_time := default 7 (min_lead_time db product_id) in
      let '(daily_demand, demand_is_np, g) :=
        draw_daily_demand demand_history mean_demand std_demand days g in
      Some (Run.mk db product_id store_id days price cost mean_demand lead_time
                   daily_demand demand_is_np,
            current_stock, g)
  end.

(** The metrics after the loop.  The only statement of [simulate_policy]
    that can raise is the division of the turnover, when both operands
    are Python numbers and the divisor has rounded to zero. *)
Definition finish (R : Run.t) (current_stock : Z) (s : Loop.t) : result Sim.t :=
  let days := Run.days R in
  let cost := Run.cost R in
  let stock := Loop.stock s in
  let service_level :=
    if 0 <? days
    then (1 - Py.float_of_Z (Loop.stockout_days s) / Py.float_of_Z days)%float
    else 0%float in
  let avg_inventory :=
    if 0 <? current_stock + stock
    then (Py.float_of_Z (current_stock + stock) / 2)%float
    else 1%float in
  Py.bind
    (if Py.gt cost 0 && Py.gt avg_inventory 0 then
       let divisor := (cost * avg_inventory)%float in
       if PrimFloat.eqb divisor 0 && negb (Loop.stock_is_np s)
       then Raise "float division by zero"
       else Ok (Loop.revenue_total s / divisor)%float
     else Ok 0%float)
    (fun inventory_turnover =>
       Ok (Sim.mk (Loop.total_profit s) (Loop.revenue_total s) (Loop.stockout_days s)
                  service_level (Loop.holding_cost_total s) (Loop.ordering_cost_total s)
                  inventory_turnover stock (Loop.daily_results s))).

(** [simulate_policy]: the outcome, the optimizer with the table as the
    run left it, and the generator. *)
Definition simulate_policy (self : Opt.t) (db : Database)
    (product_id store_id days : Z) (g : Gen) : SimOutcome * Opt.t * Gen :=
  match prepare db product_id store_id days g with
  | None => (SimError "No pricing or supplier data available", self, g)
  | Some (R, current_stock, g) =>
      let '(s, g) := run_days R (Z.to_nat days) (Loop.start self current_stock) g in
      match finish R current_stock s with
      | Ok r => (SimResult r, Loop.self s, g)
      | Raise msg => (SimError ("Simulation error: " +:+ msg), Loop.self s, g)
      end
  end.

End Optimizer.

Arguments normal {Gen} standard_normal loc scale size g.
Arguments calculate_optimal_order_quantity {Gen} random self db product_id store_id g.
Arguments sim_should_order {Gen} random self state_key should_order_eoq g.
Arguments simulate_day {Gen} random R day s g.
Arguments run_days {Gen} random R n s g.
Arguments draw_daily_demand {Gen} standard_normal demand_history mean_demand std_demand days g.
Arguments prepare {Gen} standard_normal db product_id store_id days g.
Arguments simulate_policy {Gen} random standard_normal self db product_id store_id days g.

(** ** A replayed generator and sample data for the concrete runs *)

(** A generator that replays recorded draws; past the end of a record it
    returns 0.5 for [random] and 0 for [standard_normal]. *)
Module Feed.
Record t : Type := mk { uniforms : list float; normals : list float }.

Definition random (g : t) : float * t :=
  match uniforms g with
  | [] => (0.5%float, g)
  | u :: us => (u, mk us (normals g))
  end.

Definition standard_normal (g : t) : float * t :=
  match normals g with
  | [] => (0%float, g)
  | z :: zs => (z, mk (uniforms g) zs)
  end.

Definition empty : t := mk [] [].
End Feed.

(** One product and one store: price 12, cheapest supplier cost 5, lead
    time 7 days, and the same sales rows behind both sales queries. *)
Definition shop (sales : list Z) (stock_level : option Z) (lead_time : option Z) : Database :=
  {| pricing_supplier := fun _ => Some (12%float, 5%float);
     sales_last_30_days := fun _ _ => sales;
     sales_latest_30 := fun _ _ => sales;
     inventory := fun _ _ => stock_level;
     min_lead_time := fun _ => lead_time |}.

Definition steady_sales : list Z := repeat 10 30.


(** Five days from an empty shelf with a lead time of two days. *)
Definition demo_db : Database := shop steady_sales (Some 0) (Some 2).

Definition demo_run : Run.t :=
  Run.mk demo_db 1 1 5 12 5 10 2 (repeat 10 5) false.

(** Two days from a stock of 75, just above the reorder point of 70. *)
Definition margin_db : Database := shop steady_sales (Some 75) (Some 7).

Definition margin_run : Run.t :=
  Run.mk margin_db 1 1 2 12 5 10 7 (repeat 10 2) false.

(** One day from an empty shelf. *)
Definition empty_shelf_db : Database := shop steady_sales (Some 0) (Some 7).

Definition empty_shelf_run : Run.t :=
  Run.mk empty_shelf_db 1 1 1 12 5 10 7 (repeat 10 1) false.



(** ** Notions the properties are stated with *)




Section Runs.

Variable Gen : Type.
Variable random : Gen -> float * Gen.

(** The loop variables at the start of day [k] (counted from 0) of the
    loop that starts from stock [current_stock] with optimizer [self] and
    generator [g]; for [k] the number of days, the variables after the
    loop. *)
Definition loop_state (R : Run.t) (self : Opt.t) (current_stock : Z) (g : Gen)
    (k : nat) : Loop.t :=
  fst (run_days random R k (Loop.start self current_stock) g).

Definition loop_gen (R : Run.t) (self : Opt.t) (current_stock : Z) (g : Gen)
    (k : nat) : Gen :=
  snd (run_days random R k (Loop.start self current_stock) g).

(** The loop variables after the day that starts in [s]. *)
Definition day_end (R : Run.t) (k : nat) (s : Loop.t) (g : Gen) : Loop.t :=
  fst (simulate_day random R k s g).

End Runs.

Arguments loop_state {Gen}.
Arguments loop_gen {Gen}.
Arguments day_end {Gen}.

(** ** The state keys, and sums over the records *)

(** The bucket that [state_to_key] puts a stock level in. *)
Definition stock_state (stock_level : Z) : string :=
  if stock_level <? 5 then "very_low"
  else if stock_level <? 20 then "low"
  else if stock_level <? 50 then "medium_low"
  else if stock_level <? 100 then "medium"
  else if stock_level <? 200 then "medium_high"
  else "high".

Definition stock_states : list string :=
  ["very_low"; "low"; "medium_low"; "medium"; "medium_high"; "high"].

(** The three words both entry points use for the demand level and for the
    price ratio. *)
Definition levels : list string := ["low"; "medium"; "high"].

Definition key_of (t : string * string * string) : string :=
  let '(b, d, p) := t in b +:+ "_" +:+ d +:+ "_" +:+ p.

Definition key_parts : list (string * string * string) :=
  b ← stock_states; d ← levels; p ← levels; [(b, d, p)].

(** The 54 keys that can be built from a bucket and two levels. *)
Definition all_keys : list string := key_of <$> key_parts.

Definition Zsum (l : list Z) : Z := foldr Z.add 0 l.

(** The other action. *)
Definition other_action (a : Action.t) : Action.t :=
  match a with Action.order => Action.wait | Action.wait => Action.order end.

(** * Properties *)

(** ** The classical quantities *)

Lemma classical_eoq_pos self cost avg_demand std_demand lead_time c :
  classical_quantities self cost avg_demand std_demand lead_time = Ok c ->
  1 <= Classical.eoq c.
Proof.
  unfold classical_quantities, Py.bind. intros H.
  repeat match type of H with
         | match ?r with Ok _ => _ | Raise _ => _ end = _ => destruct r; [|discriminate]
         end.
  injection H as <-. cbn. lia.
Qed.

Section DayProperties.

Variable Gen : Type.
Variable random : Gen -> float * Gen.
Variable standard_normal : Gen -> float * Gen.

(** The quantity the simulation orders is never negative: it is the EOQ
    of the full dict, at least 1, or the 0 that stands for the key the
    short dict lacks. *)
Lemma economic_order_quantity_nonneg self db product_id store_id (g : Gen) :
  0 <= get_economic_order_quantity
         (fst (calculate_optimal_order_quantity random self db product_id store_id g)).
Proof.
  unfold calculate_optimal_order_quantity.
  destruct (pricing_supplier db product_id) as [[price cost]|]; [|cbn; lia].
  destruct (sql.avg _); [|cbn; lia].
  destruct (classical_quantities _ _ _ _ _) as [c|msg] eqn:Hc; [|cbn; lia].
  apply classical_eoq_pos in Hc.
  destruct (Opt.q_values self !! _) as [e|]; [destruct (random g) as [u g1]|];
    repeat case_match; simplify_eq; cbn; lia.
Qed.


(** The delivery step touches the inventory position only. *)
Lemma receive_delivery_frame s :
  Loop.self (receive_delivery s) = Loop.self s /\
  Loop.ordering_cost_total (receive_delivery s) = Loop.ordering_cost_total s /\
  Loop.daily_results (receive_delivery s) = Loop.daily_results s.
Proof. unfold receive_delivery. repeat case_match; cbn; auto. Qed.

(** What one day does to the inventory position, read off the record it
    appends: either an order is placed, which takes a countdown at 0, or
    the position is left as the delivery step made it. *)
Lemma simulate_day_spec R k s (g : Gen) :
  let s1 := receive_delivery s in
  let s' := day_end random R k s g in
  exists r,
    Loop.daily_results s' = Loop.daily_results s ++ [r] /\
    Day.demand r = py_item (Run.daily_demand R) (Z.of_nat k) /\
    Day.sold r = Z.min (Loop.stock s1) (Day.demand r) /\
    Day.missed r = Day.demand r - Day.sold r /\
    Day.stock r = Loop.stock s1 - Day.sold r /\
    Loop.stock s' = Day.stock r /\
    ((Day.action r = "order" /\
      Loop.days_to_delivery s1 = 0 /\
      Loop.days_to_delivery s' = Run.lead_time R /\
      Loop.pending_delivery s' = Day.ordered r /\
      0 <= Day.ordered r /\
      Loop.ordering_cost_total s'
      = (Loop.ordering_cost_total s + Opt.ordering_cost (Loop.self s))%float)
     \/
     (Day.action r = "wait" /\
      Day.ordered r = 0 /\
      Loop.days_to_delivery s' = Loop.days_to_delivery s1 /\
      Loop.pending_delivery s' = Loop.pending_delivery s1 /\
      Loop.ordering_cost_total s' = Loop.ordering_cost_total s)).
Proof.
  intros s1 s'. subst s'. unfold day_end, simulate_day. fold s1.
  pose proof (economic_order_quantity_nonneg (Loop.self s1) (Run.db R)
                (Run.product_id R) (Run.store_id R) g) as Hq.
  destruct (calculate_optimal_order_quantity _ _ _ _ _ _) as [eoq_result g1].
  destruct (sim_should_order _ _ _ _ _) as [should_order g2].
  destruct (receive_delivery_frame s) as (Hself & Hcost & Hres). fold s1 in Hself, Hcost, Hres.
  destruct (should_order && (Loop.days_to_delivery s1 =? 0)) eqn:Hp; cbn.
  - apply andb_prop in Hp as [_ Hd]. apply Z.eqb_eq in Hd.
    rewrite Hres. eexists. do 6 (split; [reflexivity|]).
    left. cbn in *. rewrite Hself, Hcost. repeat split; auto.
  - rewrite Hres. eexists. do 6 (split; [reflexivity|]).
    right. repeat split; auto.
Qed.

(** ** Runs *)

Lemma loop_state_S R self current_stock (g : Gen) k :
  loop_state random R self current_stock g (S k)
  = day_end random R k (loop_state random R self current_stock g k)
            (loop_gen random R self current_stock g k).
Proof.
  unfold loop_state, loop_gen, day_end. cbn.
  destruct (run_days random R k _ g) as [s gk]. reflexivity.
Qed.

(** A property of the start that every day preserves holds at the start
    of every day. *)
Lemma loop_invariant (P : Loop.t -> Prop) R self current_stock (g : Gen) :
  P (Loop.start self current_stock) ->
  (forall k s gk, P s -> P (day_end random R k s gk)) ->
  forall k, P (loop_state random R self current_stock g k).
Proof.
  intros H0 Hstep k. induction k as [|k IH]; [exact H0|].
  rewrite loop_state_S. apply Hstep, IH.
Qed.

Lemma loop_daily_results_length R self current_stock (g : Gen) k :
  length (Loop.daily_results (loop_state random R self current_stock g k)) = k.
Proof.
  induction k as [|k IH]; [reflexivity|].
  rewrite loop_state_S.
  destruct (simulate_day_spec R k (loop_state random R self current_stock g k)
              (loop_gen random R self current_stock g k)) as (r & -> & _).
  rewrite length_app, IH. cbn. lia.
Qed.


(** With a lead time of at least one day, a countdown at 0 means that
    nothing is on order. *)
Lemma loop_nothing_pending R self current_stock (g : Gen) k :
  1 <= Run.lead_time R ->
  let s := loop_state random R self current_stock g k in
  0 <= Loop.days_to_delivery s /\
  (Loop.days_to_delivery s = 0 -> Loop.pending_delivery s = 0).
Proof.
  intros HL.
  apply (loop_invariant (fun s => 0 <= Loop.days_to_delivery s /\
           (Loop.days_to_delivery s = 0 -> Loop.pending_delivery s = 0)));
    [cbn; split; [lia|reflexivity]|].
  intros j s gk [H0 Hp].
  destruct (simulate_day_spec R j s gk) as (r & _ & _ & _ & _ & _ & _ & Hd).
  assert (H1 : 0 <= Loop.days_to_delivery (receive_delivery s) /\
               (Loop.days_to_delivery (receive_delivery s) = 0 ->
                Loop.pending_delivery (receive_delivery s) = 0)).
  { unfold receive_delivery.
    destruct (0 <? Loop.days_to_delivery s) eqn:E; [|auto].
    apply Z.ltb_lt in E.
    destruct (Loop.days_to_delivery s - 1 =? 0) eqn:E1; cbn; [split; [lia|auto]|].
    apply Z.eqb_neq in E1. split; lia. }
  destruct Hd as [(_ & _ & -> & _)|(_ & _ & -> & -> & _)]; [split; lia|exact H1].
Qed.

Lemma prepare_run db product_id store_id days (g : Gen) R current_stock g0 :
  prepare standard_normal db product_id store_id days g = Some (R, current_stock, g0) ->
  Run.lead_time R = default 7 (min_lead_time db product_id) /\
  current_stock = default 50 (inventory db product_id store_id) /\
  Run.days R = days.
Proof.
  unfold prepare. intros H.
  destruct (pricing_supplier db product_id) as [[price cost]|]; [|discriminate].
  destruct (sim_demand_stats _) as [mean_demand std_demand].
  destruct (draw_daily_demand _ _ _ _ _ _) as [[daily_demand is_np] g1].
  injection H as <- <- <-. cbn. auto.
Qed.

(** ** The simulated inventory position *)

(** C6: on every day of every run of [simulate_policy], an order is
    placed only when the delivery countdown is at 0; while it is above 0
    the day's action is "wait", nothing is ordered and the pending order
    is left alone.  With a lead time of at least one day, no earlier
    order is pending when one is placed. *)
Theorem no_order_while_delivery_pending self db product_id store_id days (g : Gen)
    R current_stock g0 k :
  prepare standard_normal db product_id store_id days g = Some (R, current_stock, g0) ->
  (k < Z.to_nat days)%nat ->
  let s1 := receive_delivery (loop_state random R self current_stock g0 k) in
  let s' := loop_state random R self current_stock g0 (S k) in
  exists r,
    last (Loop.daily_results s') = Some r /\
    (Day.action r = "order" -> Loop.days_to_delivery s1 = 0) /\
    (0 < Loop.days_to_delivery s1 ->
     Day.action r = "wait" /\ Day.ordered r = 0 /\
     Loop.days_to_delivery s' = Loop.days_to_delivery s1 /\
     Loop.pending_delivery s' = Loop.pending_delivery s1) /\
    (1 <= Run.lead_time R -> Day.action r = "order" -> Loop.pending_delivery s1 = 0).
Proof.
  intros _ _ s1 s'. subst s1 s'. rewrite loop_state_S.
  set (s := loop_state random R self current_stock g0 k).
  destruct (simulate_day_spec R k s (loop_gen random R self current_stock g0 k))
    as (r & Hres & _ & _ & _ & _ & _ & Hd).
  exists r. split; [rewrite Hres; apply last_snoc|].
  destruct Hd as [(Ha & Hz & _)|(Ha & Ho & Hdd & Hpd & _)].
  - split; [auto|]. split; [lia|]. intros HL _.
    destruct (loop_nothing_pending R self current_stock g0 k HL) as [H0 Hp]. fold s in H0, Hp.
    revert Hz. unfold receive_delivery.
    destruct (0 <? Loop.days_to_delivery s) eqn:E; [|auto].
    destruct (Loop.days_to_delivery s - 1 =? 0) eqn:E1; cbn; [auto|].
    apply Z.eqb_neq in E1. lia.
  - split; [rewrite Ha; discriminate|]. split; [auto|].
    intros _. rewrite Ha. discriminate.
Qed.






(** ** The run as a whole *)

Lemma simulate_policy_no_pricing self db product_id store_id days (g : Gen) :
  pricing_supplier db product_id = None ->
  simulate_policy random standard_normal self db product_id store_id days g
  = (SimError "No pricing or supplier data available", self, g).
Proof. intros H. unfold simulate_policy, prepare. rewrite H. reflexivity. Qed.





End DayProperties.

(** ** The demand estimate and the classical scenario *)


Lemma calc_std_demand_rows (x : Z) (rows : list Z) (avg_demand : float) :
  calc_std_demand (x :: rows) avg_demand = np.std (x :: rows).
Proof. reflexivity. Qed.




Lemma steady_classical :
  classical_quantities Opt.init 5 (calc_avg_demand 10)
    (calc_std_demand steady_sales (calc_avg_demand 10)) 7
  = Ok (Classical.mk 0.1 3650 1046 0 70).
Proof. vm_compute. reflexivity. Qed.

(** C5, refuted as stated: on the scenario the EOQ that the calculator
    returns is not 1044, and no rounding of the square root gives 1044,
    since 1045 squared is already below [2 * 3650 * 15 / 0.10]. *)
Lemma eoq_is_not_1044 :
  get_economic_order_quantity
    (fst (calculate_optimal_order_quantity Feed.random Opt.init
            (shop steady_sales (Some 0) (Some 7)) 1 1 Feed.empty)) <> 1044 /\
  1045 * 1045 < 2 * 3650 * 15 * 10.
Proof. split; [vm_compute; discriminate|lia]. Qed.

(** C5, as amended: for thirty rows of 10 units, unit cost 5, price 12 and
    lead time 7, with the constants of [__init__], the holding cost is 0.10,
    the annual demand 3650, the EOQ 1046, the safety stock 0 and the
    reorder point 70, whatever the stock and the state of the generator. *)
Theorem classical_scenario (Gen : Type) (random : Gen -> float * Gen) (g : Gen)
    (stock_level : option Z) (product_id store_id : Z) :
  sql.avg steady_sales = Some 10%float /\
  calc_std_demand steady_sales (calc_avg_demand 10) = 0%float /\
  classical_quantities Opt.init 5 (calc_avg_demand 10) 0 7
  = Ok (Classical.mk 0.1 3650 1046 0 70) /\
  exists r,
    fst (calculate_optimal_order_quantity random Opt.init
           (shop steady_sales stock_level (Some 7)) product_id store_id g)
    = Recommendation r /\
    Rec.economic_order_quantity r = 1046 /\
    Rec.safety_stock r = 0 /\
    Rec.reorder_point r = 70 /\
    Rec.avg_demand r = 10%float /\
    Rec.lead_time r = 7.
Proof.
  split; [vm_compute; reflexivity|]. split; [vm_compute; reflexivity|].
  split; [vm_compute; reflexivity|].
  unfold calculate_optimal_order_quantity. cbn [shop pricing_supplier sales_last_30_days
    inventory min_lead_time default from_option id].
  replace (sql.avg steady_sales) with (Some 10%float) by (vm_compute; reflexivity).
  cbv beta iota. rewrite steady_classical.
  cbn [Classical.eoq Classical.reorder_point Classical.safety_stock].
  destruct (Opt.q_values Opt.init !! _) as [e|]; [destruct (random g) as [u g1]|];
    repeat case_match; simplify_eq; eexists; (split; [reflexivity|]); cbn;
    repeat split; vm_compute; reflexivity.
Qed.

(** ** Missing sales history *)


(** ** The table against the trigger *)

(** In [calculate_optimal_order_quantity] a lead of at most 10 either way
    leaves the trigger's answer. *)
Lemma blend_margin_within (e : Q.t) (should_order : bool) :
  Py.gt (Q.order e) (Q.wait e + 10) = false ->
  Py.gt (Q.wait e) (Q.order e + 10) = false ->
  blend_margin e should_order = should_order.
Proof. unfold blend_margin. intros -> ->. reflexivity. Qed.

(** [calculate_optimal_order_quantity], when it consults the table, answers
    by the margin rule. *)
Lemma calculate_applies_margin (Gen : Type) (random : Gen -> float * Gen)
    self db product_id store_id (g : Gen) r e :
  fst (calculate_optimal_order_quantity random self db product_id store_id g)
  = Recommendation r ->
  Opt.q_values self !! Rec.state_key r = Some e ->
  Py.gt (fst (random g)) (Opt.exploration_rate self) = true ->
  Rec.should_order r
  = blend_margin e (Rec.current_stock r <=? Rec.reorder_point r).
Proof.
  unfold calculate_optimal_order_quantity.
  destruct (pricing_supplier db product_id) as [[price cost]|]; [|discriminate].
  destruct (sql.avg _); [|discriminate].
  destruct (classical_quantities _ _ _ _ _) as [c|msg]; [|discriminate].
  destruct (Opt.q_values self !! _) as [e'|] eqn:He.
  - destruct (random g) as [u g1]. cbn [fst].
    destruct (Py.gt u (Opt.exploration_rate self)); cbn; intros Hr Hq Hu;
      [|discriminate].
    injection Hr as <-. cbn in *. rewrite He in Hq. injection Hq as ->. reflexivity.
  - cbn. intros Hr Hq _. injection Hr as <-. cbn in Hq. congruence.
Qed.

(** In [simulate_policy] the table's answer is a plain comparison. *)
Lemma sim_should_order_consults (Gen : Type) (random : Gen -> float * Gen)
    (e : Q.t) self state_key should_order_eoq (g : Gen) :
  Opt.q_values self !! state_key = Some e ->
  Py.gt (fst (random g)) (Opt.exploration_rate self) = true ->
  fst (sim_should_order random self state_key should_order_eoq g)
  = Py.gt (Q.order e) (Q.wait e).
Proof.
  unfold sim_should_order. intros -> H.
  destruct (random g) as [u g1]. cbn [fst] in H. cbv beta iota. rewrite H. reflexivity.
Qed.

(** C2, the simulation side: on the second day of [margin_run] the stock,
    65, is at or below the reorder point, 70, and nothing is on order, so
    the trigger says order; the state is in the table with order 0 and
    wait about 7, a lead below 10, which the margin rule would ignore; the
    draw, 0.5, exceeds the exploration rate; and the day waits. *)
Theorem simulation_skips_margin :
  let s1 := receive_delivery (loop_state Feed.random margin_run Opt.init 75 Feed.empty 1) in
  let e := Q.mk 0 6.9982191780821923 in
  prepare Feed.standard_normal margin_db 1 1 2 Feed.empty = Some (margin_run, 75, Feed.empty) /\
  Loop.stock s1 = 65 /\
  Loop.days_to_delivery s1 = 0 /\
  get_reorder_point
    (fst (calculate_optimal_order_quantity Feed.random (Loop.self s1) margin_db 1 1 Feed.empty))
  = 70 /\
  Opt.q_values (Loop.self s1) !! "medium_medium_high" = Some e /\
  Py.gt (Q.order e) (Q.wait e + 10) = false /\
  Py.gt (Q.wait e) (Q.order e + 10) = false /\
  blend_margin e true = true /\
  sim_should_order Feed.random (Loop.self s1) "medium_medium_high" true Feed.empty
  = (false, Feed.empty) /\
  exists r,
    last (Loop.daily_results (loop_state Feed.random margin_run Opt.init 75 Feed.empty 2))
    = Some r /\
    Day.state r = "medium_medium_high" /\
    Day.action r = "wait" /\
    Day.ordered r = 0.
Proof.
  cbv zeta. repeat split; try (vm_compute; reflexivity).
  eexists. repeat split; vm_compute; reflexivity.
Qed.

(** ** The quantity ordered *)

(** [calculate_optimal_order_quantity] returns the quantity of the
    formula. *)
Lemma calculate_order_quantity (Gen : Type) (random : Gen -> float * Gen)
    self db product_id store_id (g : Gen) r :
  fst (calculate_optimal_order_quantity random self db product_id store_id g)
  = Recommendation r ->
  Rec.order_quantity r
  = if Rec.should_order r
    then Z.max 0 (Rec.economic_order_quantity r - Rec.current_stock r + Rec.reorder_point r)
    else 0.
Proof.
  unfold calculate_optimal_order_quantity.
  destruct (pricing_supplier db product_id) as [[price cost]|]; [|discriminate].
  destruct (sql.avg _); [|discriminate].
  destruct (classical_quantities _ _ _ _ _) as [c|msg]; [|discriminate].
  destruct (Opt.q_values self !! _) as [e|]; [destruct (random g) as [u g1]|];
    repeat case_match; cbn; intros Hr; simplify_eq; reflexivity.
Qed.

(** C3, the simulation side: from an empty shelf, with EOQ 1046 and
    reorder point 70, [calculate_optimal_order_quantity] recommends
    [max(0, 1046 - 0 + 70) = 1116] units, and the first simulated day orders
    the EOQ itself, 1046 units. *)
Theorem simulation_orders_plain_eoq :
  prepare Feed.standard_normal empty_shelf_db 1 1 1 Feed.empty
  = Some (empty_shelf_run, 0, Feed.empty) /\
  (exists c,
     fst (calculate_optimal_order_quantity Feed.random Opt.init empty_shelf_db 1 1 Feed.empty)
     = Recommendation c /\
     Rec.should_order c = true /\
     Rec.economic_order_quantity c = 1046 /\
     Rec.reorder_point c = 70 /\
     Rec.current_stock c = 0 /\
     Rec.order_quantity c = 1116) /\
  Z.max 0 (1046 - 0 + 70) = 1116 /\
  exists r,
    Loop.daily_results (loop_state Feed.random empty_shelf_run Opt.init 0 Feed.empty 1) = [r] /\
    Day.action r = "order" /\
    Day.ordered r = 1046 /\
    Loop.pending_delivery (loop_state Feed.random empty_shelf_run Opt.init 0 Feed.empty 1)
    = 1046.
Proof.
  split; [vm_compute; reflexivity|]. split.
  - eexists. repeat split; vm_compute; reflexivity.
  - split; [reflexivity|]. eexists. repeat split; vm_compute; reflexivity.
Qed.

(** ** The table is kept between runs *)

(** A second run on the optimizer that the first run has taught starts
    differently: the first run orders on its first day, the second waits. *)
Lemma second_run_differs :
  let first := simulate_policy Feed.random Feed.standard_normal Opt.init
                 empty_shelf_db 1 1 1 Feed.empty in
  let second := simulate_policy Feed.random Feed.standard_normal (snd (fst first))
                  empty_shelf_db 1 1 1 Feed.empty in
  (exists r, fst (fst first) = SimResult r /\
             map Day.action (Sim.daily_results r) = ["order"]) /\
  (exists r, fst (fst second) = SimResult r /\
             map Day.action (Sim.daily_results r) = ["wait"]).
Proof.
  cbv zeta. split; eexists; split; vm_compute; reflexivity.
Qed.

(** ** The theorems at work on concrete runs *)

Lemma demo_prepare :
  prepare Feed.standard_normal demo_db 1 1 5 Feed.empty = Some (demo_run, 0, Feed.empty).
Proof. vm_compute. reflexivity. Defined.

(** On the second day of [demo_run] the order of the first day is one day
    from delivery, and the day waits. *)
Lemma no_order_while_delivery_pending_witness :
  prepare Feed.standard_normal demo_db 1 1 5 Feed.empty = Some (demo_run, 0, Feed.empty) /\
  (1 < Z.to_nat 5)%nat /\
  exists r,
    last (Loop.daily_results (loop_state Feed.random demo_run Opt.init 0 Feed.empty 2)) = Some r /\
    Day.action r = "wait" /\
    Day.ordered r = 0.
Proof.
  split; [exact demo_prepare|]. split; [cbn; lia|].
  destruct (no_order_while_delivery_pending Feed.t Feed.random Feed.standard_normal
              Opt.init demo_db 1 1 5 Feed.empty demo_run 0 Feed.empty 1 demo_prepare)
    as (r & Hr & _ & Hw & _); [cbn; lia|].
  exists r. split; [exact Hr|].
  destruct Hw as (Ha & Ho & _); [vm_compute; reflexivity|]. split; assumption.
Defined.








(** * Further properties of the optimizer *)

(** ** [state_to_key] *)

Lemma state_to_key_parts stock_level demand_level price_ratio :
  state_to_key stock_level demand_level price_ratio
  = key_of (stock_state stock_level, demand_level, price_ratio).
Proof. unfold state_to_key, stock_state, key_of. repeat case_match; reflexivity. Qed.

Lemma stock_state_in stock_level : stock_state stock_level ∈ stock_states.
Proof. unfold stock_state, stock_states. repeat case_match; set_solver. Qed.

Lemma key_parts_in b d p :
  b ∈ stock_states -> d ∈ levels -> p ∈ levels -> (b, d, p) ∈ key_parts.
Proof.
  intros Hb Hd Hp. unfold key_parts.
  apply list_elem_of_bind. exists b. split; [|exact Hb].
  apply list_elem_of_bind. exists d. split; [|exact Hd].
  apply list_elem_of_bind. exists p. split; [|exact Hp].
  apply list_elem_of_singleton. reflexivity.
Qed.

Lemma all_keys_NoDup : NoDup all_keys.
Proof. apply (bool_decide_unpack _). vm_compute. exact I. Qed.

Lemma key_of_inj t1 t2 :
  t1 ∈ key_parts -> t2 ∈ key_parts -> key_of t1 = key_of t2 -> t1 = t2.
Proof.
  intros H1 H2 Heq.
  apply list_elem_of_lookup in H1 as [i Hi]. apply list_elem_of_lookup in H2 as [j Hj].
  assert (Hij : i = j).
  { eapply NoDup_lookup; [exact all_keys_NoDup| |].
    - unfold all_keys. rewrite list_lookup_fmap, Hi. reflexivity.
    - unfold all_keys. rewrite list_lookup_fmap, Hj. cbn. f_equal. symmetry. exact Heq. }
  subst j. congruence.
Qed.

(** X1: two states get the same key exactly when their stock levels fall
    in the same bucket and their demand levels and price ratios are the
    same words: joining the parts with underscores makes no two of the 54
    states collide. *)
Theorem state_to_key_same_key s1 s2 d1 d2 p1 p2 :
  d1 ∈ levels -> p1 ∈ levels -> d2 ∈ levels -> p2 ∈ levels ->
  state_to_key s1 d1 p1 = state_to_key s2 d2 p2
  <-> stock_state s1 = stock_state s2 /\ d1 = d2 /\ p1 = p2.
Proof.
  intros Hd1 Hp1 Hd2 Hp2. rewrite !state_to_key_parts. split.
  - intros H. apply key_of_inj in H;
      [|apply key_parts_in; auto using stock_state_in..].
    injection H as -> -> ->. auto.
  - intros (-> & -> & ->). reflexivity.
Qed.

(** ** [update_policy] *)

Lemma setdefault_zero_dom k (q : gmap string Q.t) :
  dom (setdefault_zero k q) = dom q ∪ {[k]}.
Proof.
  unfold setdefault_zero. destruct (q !! k) eqn:E.
  - apply elem_of_dom_2 in E. set_solver.
  - rewrite dom_insert_L. set_solver.
Qed.

Lemma setdefault_zero_read k j (q : gmap string Q.t) :
  default Q.zero (setdefault_zero k q !! j) = default Q.zero (q !! j).
Proof.
  unfold setdefault_zero. destruct (q !! k) eqn:E; [reflexivity|].
  destruct (decide (k = j)) as [->|Hne].
  - rewrite lookup_insert_eq, E. reflexivity.
  - rewrite lookup_insert_ne by exact Hne. reflexivity.
Qed.

(** X2: [update_policy] enters the two keys it is given and no other: the
    keys of the table afterwards are the keys before together with the
    state and the next state. *)
Theorem update_policy_keys self state_key action reward next_state_key :
  dom (Opt.q_values (update_policy self state_key action reward next_state_key))
  = dom (Opt.q_values self) ∪ {[state_key; next_state_key]}.
Proof.
  unfold update_policy. cbn. rewrite dom_insert_L, !setdefault_zero_dom. set_solver.
Qed.

(** X3: [update_policy] writes one action value of one state.  Read with
    zeros for a key that is missing, every value of every other state, and
    the value of the other action of the state itself, is what it was; the
    constants of the optimizer are not touched. *)
Theorem update_policy_frame self state_key action reward next_state_key j b :
  j <> state_key \/ b <> action ->
  let self' := update_policy self state_key action reward next_state_key in
  Q.get (default Q.zero (Opt.q_values self' !! j)) b
  = Q.get (default Q.zero (Opt.q_values self !! j)) b /\
  self' = Opt.with_q_values self (Opt.q_values self').
Proof.
  intros H self'. split; [|reflexivity].
  subst self'. unfold update_policy. cbn.
  destruct (decide (j = state_key)) as [->|Hne].
  - destruct H as [H|H]; [congruence|].
    rewrite lookup_insert_eq. cbn.
    rewrite lookup_total_alt.
    replace (Q.get (Q.set _ action _) b)
      with (Q.get (default Q.zero
              (setdefault_zero next_state_key
                 (setdefault_zero state_key (Opt.q_values self)) !! state_key)) b).
    + rewrite !setdefault_zero_read. reflexivity.
    + cbn. destruct action, b; try congruence; reflexivity.
  - rewrite lookup_insert_ne by congruence. rewrite !setdefault_zero_read. reflexivity.
Qed.

(** ** [calculate_optimal_order_quantity] *)

Lemma classical_floors self cost avg_demand std_demand lead_time c :
  classical_quantities self cost avg_demand std_demand lead_time = Ok c ->
  1 <= Classical.eoq c /\ 0 <= Classical.safety_stock c /\ 1 <= Classical.reorder_point c.
Proof.
  unfold classical_quantities, Py.bind. intros H.
  repeat match type of H with
         | match ?r with Ok _ => _ | Raise _ => _ end = _ => destruct r; [|discriminate]
         end.
  injection H as <-. cbn. lia.
Qed.

(** What stands behind a full dict. *)
Lemma calculate_full (Gen : Type) (random : Gen -> float * Gen)
    self db product_id store_id (g : Gen) r :
  fst (calculate_optimal_order_quantity random self db product_id store_id g)
  = Recommendation r ->
  exists price cost avg c,
    pricing_supplier db product_id = Some (price, cost) /\
    sql.avg (sales_last_30_days db product_id store_id) = Some avg /\
    classical_quantities self cost (calc_avg_demand avg)
      (calc_std_demand (sales_last_30_days db product_id store_id) (calc_avg_demand avg))
      (default 7 (min_lead_time db product_id)) = Ok c /\
    Rec.economic_order_quantity r = Classical.eoq c /\
    Rec.safety_stock r = Classical.safety_stock c /\
    Rec.reorder_point r = Classical.reorder_point c /\
    Rec.current_stock r = default 0 (inventory db product_id store_id) /\
    Rec.lead_time r = default 7 (min_lead_time db product_id) /\
    Rec.state_key r
    = state_to_key (Rec.current_stock r)
        (calc_demand_level (calc_avg_demand avg)
           (calc_std_demand (sales_last_30_days db product_id store_id) (calc_avg_demand avg)))
        (calc_price_ratio price cost).
Proof.
  unfold calculate_optimal_order_quantity.
  destruct (pricing_supplier db product_id) as [[price cost]|]; [|discriminate].
  destruct (sql.avg _) as [avg|]; [|discriminate].
  destruct (classical_quantities _ _ _ _ _) as [c|msg] eqn:Hc; [|discriminate].
  intros Hr. exists price, cost, avg, c.
  destruct (Opt.q_values self !! _) as [e|]; [destruct (random g) as [u g1]|];
    repeat case_match; cbn in Hr; simplify_eq; cbn; auto 10.
Qed.

(** X4: every full recommendation respects the floors: the EOQ and the
    reorder point are at least 1, the safety stock and the order quantity
    are not negative, and nothing is ordered unless [should_order] is
    set. *)
Theorem recommendation_floors (Gen : Type) (random : Gen -> float * Gen)
    self db product_id store_id (g : Gen) r :
  fst (calculate_optimal_order_quantity random self db product_id store_id g)
  = Recommendation r ->
  1 <= Rec.economic_order_quantity r /\
  0 <= Rec.safety_stock r /\
  1 <= Rec.reorder_point r /\
  0 <= Rec.order_quantity r /\
  (Rec.should_order r = false -> Rec.order_quantity r = 0).
Proof.
  intros Hr. pose proof (calculate_order_quantity _ _ _ _ _ _ _ _ Hr) as Hq.
  apply calculate_full in Hr as (price & cost & avg & c & _ & _ & Hc & -> & -> & -> & _).
  apply classical_floors in Hc as (He & Hs & Hp).
  rewrite Hq. repeat split; try assumption.
  - destruct (Rec.should_order r); lia.
  - intros ->. reflexivity.
Qed.

(** X5: a recommended order fills the stock up to the EOQ plus the reorder
    point: with [should_order] set, the stock and the order quantity
    together reach that level, and reach it exactly unless the stock is
    already above it, in which case nothing is ordered. *)
Theorem recommendation_orders_up_to (Gen : Type) (random : Gen -> float * Gen)
    self db product_id store_id (g : Gen) r :
  fst (calculate_optimal_order_quantity random self db product_id store_id g)
  = Recommendation r ->
  Rec.should_order r = true ->
  let level := Rec.economic_order_quantity r + Rec.reorder_point r in
  level <= Rec.current_stock r + Rec.order_quantity r /\
  (Rec.current_stock r <= level -> Rec.current_stock r + Rec.order_quantity r = level) /\
  (level <= Rec.current_stock r -> Rec.order_quantity r = 0).
Proof.
  intros Hr Hs level. subst level.
  rewrite (calculate_order_quantity _ _ _ _ _ _ _ _ Hr), Hs. lia.
Qed.

(** X6: on an optimizer whose table is empty the recommendation is the
    reorder-point trigger and no random number is drawn; in particular an
    empty (or negative) stock level always gives an order, of at least two
    units. *)
Theorem fresh_optimizer_follows_trigger (Gen : Type) (random : Gen -> float * Gen)
    self db product_id store_id (g : Gen) :
  Opt.q_values self = ∅ ->
  snd (calculate_optimal_order_quantity random self db product_id store_id g) = g /\
  forall r,
    fst (calculate_optimal_order_quantity random self db product_id store_id g)
    = Recommendation r ->
    Rec.should_order r = (Rec.current_stock r <=? Rec.reorder_point r) /\
    (Rec.current_stock r <= 0 ->
     Rec.should_order r = true /\ 2 <= Rec.order_quantity r).
Proof.
  intros Hq.
  assert (Hs : snd (calculate_optimal_order_quantity random self db product_id store_id g) = g
               /\ forall r,
                  fst (calculate_optimal_order_quantity random self db product_id store_id g)
                  = Recommendation r ->
                  Rec.should_order r = (Rec.current_stock r <=? Rec.reorder_point r)).
  { unfold calculate_optimal_order_quantity. rewrite Hq.
    destruct (pricing_supplier db product_id) as [[price cost]|]; [|split; [reflexivity|discriminate]].
    destruct (sql.avg _) as [avg|]; [|split; [reflexivity|discriminate]].
    destruct (classical_quantities _ _ _ _ _) as [c|msg]; [|split; [reflexivity|discriminate]].
    rewrite lookup_empty. cbn. split; [reflexivity|].
    intros r Hr. injection Hr as <-. reflexivity. }
  destruct Hs as [Hg Hs]. split; [exact Hg|]. intros r Hr.
  specialize (Hs r Hr). split; [exact Hs|]. intros Hstock.
  destruct (recommendation_floors _ _ _ _ _ _ _ _ Hr) as (He & _ & Hp & _).
  assert (Ht : Rec.should_order r = true) by (rewrite Hs; apply Z.leb_le; lia).
  split; [exact Ht|].
  rewrite (calculate_order_quantity _ _ _ _ _ _ _ _ Hr), Ht. lia.
Qed.

(** X7: the short dict and its causes.  The call answers "No pricing or
    supplier data" exactly when the product has no pricing/supplier row,
    and "Insufficient sales history" exactly when it has one but no sales
    row in the last thirty days; a short dict of any kind reads as reorder
    point 0 and EOQ 0 and leaves the generator as it was. *)
Theorem short_dict_causes (Gen : Type) (random : Gen -> float * Gen)
    self db product_id store_id (g : Gen) :
  let result := calculate_optimal_order_quantity random self db product_id store_id g in
  (fst result = NoOrder "No pricing or supplier data"
   <-> pricing_supplier db product_id = None) /\
  (fst result = NoOrder "Insufficient sales history"
   <-> pricing_supplier db product_id <> None /\
       sales_last_30_days db product_id store_id = []) /\
  (forall message, fst result = NoOrder message ->
     get_reorder_point (fst result) = 0 /\
     get_economic_order_quantity (fst result) = 0 /\
     snd result = g).
Proof.
  cbv zeta. unfold calculate_optimal_order_quantity.
  destruct (pricing_supplier db product_id) as [[price cost]|].
  - destruct (sales_last_30_days db product_id store_id) as [|x rows] eqn:Hrows.
    + cbn. repeat split; try discriminate; try congruence; auto.
    + cbn [sql.avg].
      destruct (classical_quantities _ _ _ _ _) as [c|msg].
      * destruct (Opt.q_values self !! _) as [e|]; [destruct (random g) as [u g1]|];
          repeat case_match; cbn; repeat split; try discriminate;
          intros [_ ?]; discriminate.
      * cbn. repeat split; try discriminate; intros [_ ?]; discriminate.
  - cbn. repeat split; try discriminate; try congruence; auto.
    intros [? _]. congruence.
Qed.

(** ** [simulate_policy]: the records and the table of a run *)

Section RunProperties.

Variable Gen : Type.
Variable random : Gen -> float * Gen.
Variable standard_normal : Gen -> float * Gen.

(** More of what a day appends and updates: the number and the state key
    of the record, the quantity of an order, the stockout count, and the
    one call of [update_policy]. *)
Lemma simulate_day_record R k s (g : Gen) :
  let s1 := receive_delivery s in
  let s' := day_end random R k s g in
  exists r,
    Loop.daily_results s' = Loop.daily_results s ++ [r] /\
    Day.day r = Z.of_nat k + 1 /\
    Day.state r
    = state_to_key (Loop.stock s1)
        (sim_demand_level (py_item (Run.daily_demand R) (Z.of_nat k)) (Run.mean_demand R))
        (sim_price_ratio (Run.price R) (Run.cost R)) /\
    (Day.ordered r = 0 \/
     Day.ordered r
     = get_economic_order_quantity
         (fst (calculate_optimal_order_quantity random (Loop.self s) (Run.db R)
                 (Run.product_id R) (Run.store_id R) g))) /\
    Loop.stockout_days s'
    = Loop.stockout_days s + (if 0 <? Day.missed r then 1 else 0) /\
    exists action next_demand,
      Loop.self s'
      = update_policy (Loop.self s) (Day.state r) action (Day.profit r)
          (state_to_key (Loop.stock s')
             (sim_demand_level next_demand (Run.mean_demand R))
             (sim_price_ratio (Run.price R) (Run.cost R))).
Proof.
  intros s1 s'. subst s'. unfold day_end, simulate_day. fold s1.
  assert (Hf : Loop.self s1 = Loop.self s /\ Loop.stockout_days s1 = Loop.stockout_days s
               /\ Loop.daily_results s1 = Loop.daily_results s).
  { subst s1. unfold receive_delivery. repeat case_match; cbn; auto. }
  destruct Hf as (Hself & Hso & Hres). rewrite Hself.
  destruct (calculate_optimal_order_quantity _ _ _ _ _ _) as [eoq_result g1].
  destruct (sim_should_order _ _ _ _ _) as [should_order g2].
  cbn. rewrite Hres, Hso. eexists. split; [reflexivity|]. cbn.
  split; [reflexivity|]. split; [reflexivity|].
  split; [destruct (should_order && _); auto|].
  split; [destruct (0 <? _); lia|].
  eexists _, _. reflexivity.
Qed.

(** The outcome of [simulate_policy] in terms of the loop. *)
Lemma simulate_policy_loop self db product_id store_id days (g : Gen) :
  pricing_supplier db product_id <> None ->
  exists R current_stock g0,
    prepare standard_normal db product_id store_id days g = Some (R, current_stock, g0) /\
    let s := loop_state random R self current_stock g0 (Z.to_nat days) in
    snd (fst (simulate_policy random standard_normal self db product_id store_id days g))
    = Loop.self s /\
    forall r,
      fst (fst (simulate_policy random standard_normal self db product_id store_id days g))
      = SimResult r ->
      Sim.daily_results r = Loop.daily_results s /\
      Sim.final_stock r = Loop.stock s /\
      Sim.stockout_days r = Loop.stockout_days s.
Proof.
  intros Hp. unfold simulate_policy.
  destruct (prepare standard_normal db product_id store_id days g)
    as [[[R current_stock] g0]|] eqn:Hprep.
  - exists R, current_stock, g0. split; [reflexivity|]. unfold loop_state.
    destruct (run_days random R (Z.to_nat days) _ g0) as [s gn]. cbn [fst].
    unfold finish, Py.bind.
    repeat case_match; cbn; (split; [reflexivity|]); intros r Hr; simplify_eq; cbn; auto.
  - unfold prepare in Hprep.
    destruct (pricing_supplier db product_id) as [[price cost]|]; [|congruence].
    destruct (sim_demand_stats _) as [m sd].
    destruct (draw_daily_demand _ _ _ _ _ _) as [[dd np] g1]. discriminate.
Qed.

Lemma loop_table_grows R self current_stock (g : Gen) k :
  let s := loop_state random R self current_stock g k in
  Loop.self s = Opt.with_q_values self (Opt.q_values (Loop.self s)) /\
  dom (Opt.q_values self) ⊆ dom (Opt.q_values (Loop.self s)).
Proof.
  apply (loop_invariant Gen random
           (fun s => Loop.self s = Opt.with_q_values self (Opt.q_values (Loop.self s)) /\
                     dom (Opt.q_values self) ⊆ dom (Opt.q_values (Loop.self s)))).
  - cbn. split; [destruct self; reflexivity|set_solver].
  - intros j s gk [Hs Hd].
    destruct (simulate_day_record R j s gk) as (r & _ & _ & _ & _ & _ & a & nd & ->).
    rewrite update_policy_keys. split; [|set_solver].
    unfold update_policy. cbn. set (q := <[_ := _]> _).
    rewrite Hs. reflexivity.
Qed.

(** X8: whatever the outcome, [simulate_policy] changes nothing of the
    optimizer but its table, and the table only gains keys: every state
    known before the run is known after it. *)
Theorem simulation_only_grows_table self db product_id store_id days (g : Gen) :
  let self' :=
    snd (fst (simulate_policy random standard_normal self db product_id store_id days g)) in
  self' = Opt.with_q_values self (Opt.q_values self') /\
  dom (Opt.q_values self) ⊆ dom (Opt.q_values self').
Proof.
  cbv zeta. destruct (pricing_supplier db product_id) as [pc|] eqn:Hp.
  - destruct (simulate_policy_loop self db product_id store_id days g)
      as (R & cs & g0 & _ & -> & _); [congruence|].
    apply loop_table_grows.
  - rewrite (simulate_policy_no_pricing Gen random standard_normal _ _ _ _ _ _ Hp). cbn.
    split; [destruct self; reflexivity|set_solver].
Qed.

Lemma loop_states_learned R self current_stock (g : Gen) k :
  let s := loop_state random R self current_stock g k in
  Forall (fun d => Day.state d ∈ dom (Opt.q_values (Loop.self s))) (Loop.daily_results s).
Proof.
  apply (loop_invariant Gen random
           (fun s => Forall (fun d => Day.state d ∈ dom (Opt.q_values (Loop.self s)))
                       (Loop.daily_results s))).
  - cbn. constructor.
  - intros j s gk Hs.
    destruct (simulate_day_record R j s gk) as (r & -> & _ & _ & _ & _ & a & nd & ->).
    rewrite update_policy_keys. apply Forall_app. split.
    + eapply Forall_impl; [exact Hs|]. cbn. set_solver.
    + constructor; [set_solver|constructor].
Qed.

(** X9: after a run that returns a result, the state key of every daily
    record has an entry in the optimizer's table. *)
Theorem visited_states_are_learned self db product_id store_id days (g : Gen) r self' g' :
  simulate_policy random standard_normal self db product_id store_id days g
  = (SimResult r, self', g') ->
  Forall (fun d => Day.state d ∈ dom (Opt.q_values self')) (Sim.daily_results r).
Proof.
  intros Hsim.
  destruct (pricing_supplier db product_id) as [pc|] eqn:Hp;
    [|rewrite (simulate_policy_no_pricing Gen random standard_normal _ _ _ _ _ _ Hp) in Hsim;
      discriminate].
  destruct (simulate_policy_loop self db product_id store_id days g)
    as (R & cs & g0 & _ & Hself & Hr); [congruence|].
  rewrite Hsim in Hself, Hr. cbn in Hself, Hr.
  destruct (Hr r eq_refl) as (-> & _). subst self'. apply loop_states_learned.
Qed.

Lemma sim_demand_level_in demand mean_demand :
  sim_demand_level demand mean_demand ∈ levels.
Proof. unfold sim_demand_level, levels. repeat case_match; set_solver. Qed.

Lemma sim_price_ratio_in price cost : sim_price_ratio price cost ∈ levels.
Proof. unfold sim_price_ratio, levels. repeat case_match; set_solver. Qed.

Lemma state_to_key_in_all_keys stock_level demand_level price_ratio :
  demand_level ∈ levels -> price_ratio ∈ levels ->
  state_to_key stock_level demand_level price_ratio ∈ all_keys.
Proof.
  intros Hd Hp. rewrite state_to_key_parts. unfold all_keys.
  apply list_elem_of_fmap. eexists. split; [reflexivity|].
  apply key_parts_in; auto using stock_state_in.
Qed.

Lemma loop_table_bounded R self current_stock (g : Gen) k :
  dom (Opt.q_values self) ⊆ list_to_set all_keys ->
  let s := loop_state random R self current_stock g k in
  dom (Opt.q_values (Loop.self s)) ⊆ list_to_set all_keys /\
  Forall (fun d => Day.state d ∈ all_keys) (Loop.daily_results s).
Proof.
  intros H0.
  apply (loop_invariant Gen random
           (fun s => dom (Opt.q_values (Loop.self s)) ⊆ list_to_set all_keys /\
                     Forall (fun d => Day.state d ∈ all_keys) (Loop.daily_results s))).
  - cbn. split; [exact H0|constructor].
  - intros j s gk [Hs Hr].
    destruct (simulate_day_record R j s gk) as (r & -> & _ & Hkey & _ & _ & a & nd & ->).
    assert (Hin : Day.state r ∈ all_keys).
    { rewrite Hkey.
      apply state_to_key_in_all_keys; [apply sim_demand_level_in|apply sim_price_ratio_in]. }
    split.
    + rewrite update_policy_keys.
      pose proof (state_to_key_in_all_keys (Loop.stock (day_end random R j s gk))
                    _ _ (sim_demand_level_in nd (Run.mean_demand R))
                    (sim_price_ratio_in (Run.price R) (Run.cost R))) as Hnext.
      intros x Hx. apply elem_of_union in Hx as [Hx|Hx]; [apply Hs, Hx|].
      apply elem_of_union in Hx as [Hx|Hx]; apply elem_of_singleton in Hx; subst x;
        apply elem_of_list_to_set; assumption.
    + apply Forall_app. split; [exact Hr|]. constructor; [exact Hin|constructor].
Qed.

(** X10: the table stays within the 54 keys of the state classifier.  If
    the optimizer knows no other key before a run, it knows no other key
    after it, so its table never holds more than 54 entries, and the state
    key of every record is one of the 54. *)
Theorem table_stays_within_54_keys self db product_id store_id days (g : Gen) :
  dom (Opt.q_values self) ⊆ list_to_set all_keys ->
  let outcome := simulate_policy random standard_normal self db product_id store_id days g in
  dom (Opt.q_values (snd (fst outcome))) ⊆ list_to_set all_keys /\
  (size (Opt.q_values (snd (fst outcome))) <= 54)%nat /\
  forall r, fst (fst outcome) = SimResult r ->
            Forall (fun d => Day.state d ∈ all_keys) (Sim.daily_results r).
Proof.
  intros H0. cbv zeta.
  assert (Hsize : forall q : gmap string Q.t,
             dom q ⊆ list_to_set all_keys -> (size q <= 54)%nat).
  { intros q Hq. rewrite <- size_dom.
    etransitivity; [apply subseteq_size, Hq|].
    rewrite size_list_to_set by apply all_keys_NoDup. vm_compute. lia. }
  destruct (pricing_supplier db product_id) as [pc|] eqn:Hp.
  - destruct (simulate_policy_loop self db product_id store_id days g)
      as (R & cs & g0 & _ & -> & Hr); [congruence|].
    destruct (loop_table_bounded R self cs g0 (Z.to_nat days) H0) as [Hd Hk].
    split; [exact Hd|]. split; [apply Hsize, Hd|].
    intros r Heq. destruct (Hr r Heq) as (-> & _). exact Hk.
  - rewrite (simulate_policy_no_pricing Gen random standard_normal _ _ _ _ _ _ Hp). cbn.
    split; [exact H0|]. split; [apply Hsize, H0|]. discriminate.
Qed.

Lemma loop_day_numbers R self current_stock (g : Gen) k :
  Day.day <$> Loop.daily_results (loop_state random R self current_stock g k)
  = Z.of_nat <$> seq 1 k.
Proof.
  induction k as [|k IH]; [reflexivity|].
  rewrite (loop_state_S Gen random).
  destruct (simulate_day_record R k (loop_state random R self current_stock g k)
              (loop_gen random R self current_stock g k)) as (r & -> & Hday & _).
  rewrite fmap_app, IH, seq_S, fmap_app. cbn. rewrite Hday. do 2 f_equal. lia.
Qed.

(** X11: a run that returns a result returns one record per simulated day,
    numbered 1, 2, ... in the order of the days (none for a horizon of 0
    or less). *)
Theorem records_are_numbered self db product_id store_id days (g : Gen) r self' g' :
  simulate_policy random standard_normal self db product_id store_id days g
  = (SimResult r, self', g') ->
  Day.day <$> Sim.daily_results r = Z.of_nat <$> seq 1 (Z.to_nat days).
Proof.
  intros Hsim.
  destruct (pricing_supplier db product_id) as [pc|] eqn:Hp;
    [|rewrite (simulate_policy_no_pricing Gen random standard_normal _ _ _ _ _ _ Hp) in Hsim;
      discriminate].
  destruct (simulate_policy_loop self db product_id store_id days g)
    as (R & cs & g0 & _ & _ & Hr); [congruence|].
  rewrite Hsim in Hr. cbn in Hr. destruct (Hr r eq_refl) as (-> & _).
  apply loop_day_numbers.
Qed.

Lemma loop_demands R self current_stock (g : Gen) k :
  Day.demand <$> Loop.daily_results (loop_state random R self current_stock g k)
  = (fun i => py_item (Run.daily_demand R) (Z.of_nat i)) <$> seq 0 k.
Proof.
  induction k as [|k IH]; [reflexivity|].
  rewrite (loop_state_S Gen random).
  destruct (simulate_day_spec Gen random R k (loop_state random R self current_stock g k)
              (loop_gen random R self current_stock g k)) as (r & -> & Hdem & _).
  rewrite fmap_app, IH, seq_S, fmap_app. cbn. rewrite Hdem. reflexivity.
Qed.

Lemma py_items_prefix (l : list Z) k :
  (k <= length l)%nat ->
  (fun i => py_item l (Z.of_nat i)) <$> seq 0 k = take k l.
Proof.
  intros Hk. apply list_eq. intros i.
  rewrite list_lookup_fmap.
  destruct (decide (i < k)%nat) as [Hi|Hi].
  - rewrite lookup_seq_lt by exact Hi. cbn. rewrite lookup_take_lt by exact Hi.
    unfold py_item. rewrite Nat2Z.id.
    destruct (l !! i) as [x|] eqn:E.
    + f_equal. apply nth_lookup_Some with (d := 0) in E. exact E.
    + apply lookup_ge_None in E. lia.
  - rewrite lookup_seq_ge by lia. cbn. symmetry. apply lookup_ge_None.
    rewrite length_take. lia.
Qed.

(** X12: when the sales history covers the horizon, the run replays it:
    the demands of the records are the first [days] rows of the history
    that [simulate_policy] reads, latest row first. *)
Theorem history_is_replayed self db product_id store_id days (g : Gen) r self' g' :
  days <= Z.of_nat (length (sales_latest_30 db product_id store_id)) ->
  simulate_policy random standard_normal self db product_id store_id days g
  = (SimResult r, self', g') ->
  Day.demand <$> Sim.daily_results r
  = take (Z.to_nat days) (sales_latest_30 db product_id store_id).
Proof.
  intros Hdays Hsim.
  destruct (pricing_supplier db product_id) as [[price cost]|] eqn:Hp;
    [|rewrite (simulate_policy_no_pricing Gen random standard_normal _ _ _ _ _ _ Hp) in Hsim;
      discriminate].
  destruct (simulate_policy_loop self db product_id store_id days g)
    as (R & cs & g0 & Hprep & _ & Hr); [congruence|].
  rewrite Hsim in Hr. cbn in Hr. destruct (Hr r eq_refl) as (-> & _).
  rewrite loop_demands.
  assert (Hdd : Run.daily_demand R
                = py_prefix (sales_latest_30 db product_id store_id) days).
  { unfold prepare in Hprep. rewrite Hp in Hprep.
    destruct (sim_demand_stats _) as [m sd]. unfold draw_daily_demand in Hprep.
    apply Z.leb_le in Hdays. rewrite Hdays in Hprep. injection Hprep as <- _ _. reflexivity. }
  rewrite Hdd. unfold py_prefix.
  destruct (0 <=? days) eqn:E.
  - apply Z.leb_le in E. rewrite py_items_prefix.
    + rewrite take_take. f_equal. lia.
    + rewrite length_take. lia.
  - apply Z.leb_gt in E. replace (Z.to_nat days) with 0%nat by lia. reflexivity.
Qed.

Lemma Zsum_snoc (l : list Z) x : Zsum (l ++ [x]) = Zsum l + x.
Proof. unfold Zsum. induction l as [|y l IH]; cbn; [lia|]. rewrite IH. lia. Qed.

Lemma Zsum_fmap_snoc {A} (f : A -> Z) (l : list A) x :
  Zsum (f <$> (l ++ [x])) = Zsum (f <$> l) + f x.
Proof. rewrite fmap_app. apply Zsum_snoc. Qed.

(** The two descriptions of a day are about the same record. *)
Lemma simulate_day_both R k s (g : Gen) :
  let s1 := receive_delivery s in
  let s' := day_end random R k s g in
  exists r,
    Loop.daily_results s' = Loop.daily_results s ++ [r] /\
    Day.sold r = Z.min (Loop.stock s1) (Day.demand r) /\
    Day.missed r = Day.demand r - Day.sold r /\
    Day.stock r = Loop.stock s1 - Day.sold r /\
    Loop.stock s' = Day.stock r /\
    Loop.stockout_days s' = Loop.stockout_days s + (if 0 <? Day.missed r then 1 else 0) /\
    (Day.ordered r = 0 \/
     Day.ordered r
     = get_economic_order_quantity
         (fst (calculate_optimal_order_quantity random (Loop.self s) (Run.db R)
                 (Run.product_id R) (Run.store_id R) g))) /\
    ((Loop.days_to_delivery s1 = 0 /\ Loop.pending_delivery s' = Day.ordered r) \/
     (Day.ordered r = 0 /\ Loop.pending_delivery s' = Loop.pending_delivery s1)).
Proof.
  intros s1 s'.
  destruct (simulate_day_spec Gen random R k s g)
    as (r & Hres & _ & Hsold & Hmiss & Hst & Hst' & Hd).
  destruct (simulate_day_record R k s g) as (r' & Hres' & _ & _ & Hord & Hso & _).
  fold s' in Hres, Hres', Hst', Hd, Hso. rewrite Hres in Hres'.
  apply app_inj_tail in Hres' as [_ <-].
  exists r. repeat split; try assumption.
  destruct Hd as [(_ & Hz & _ & Hp & _)|(_ & Ho & _ & Hp & _)]; [left|right]; auto.
Qed.

Lemma loop_stockouts R self current_stock (g : Gen) k :
  let s := loop_state random R self current_stock g k in
  Loop.stockout_days s
  = Z.of_nat (length (filter (fun d => 0 < Day.missed d) (Loop.daily_results s))) /\
  Forall (fun d => 0 <= Day.missed d /\ Day.sold d <= Day.demand d /\
                   (Day.missed d = 0 \/ Day.stock d = 0))
         (Loop.daily_results s).
Proof.
  apply (loop_invariant Gen random
           (fun s => Loop.stockout_days s
                     = Z.of_nat (length (filter (fun d => 0 < Day.missed d)
                                           (Loop.daily_results s))) /\
                     Forall (fun d => 0 <= Day.missed d /\ Day.sold d <= Day.demand d /\
                                      (Day.missed d = 0 \/ Day.stock d = 0))
                            (Loop.daily_results s))).
  - cbn. split; [reflexivity|constructor].
  - intros j s gk [Hn Hall].
    destruct (simulate_day_both R j s gk)
      as (r & -> & Hsold & Hmiss & Hst & _ & -> & _).
    split.
    + rewrite filter_app, length_app, Hn.
      destruct (0 <? Day.missed r) eqn:E.
      * apply Z.ltb_lt in E. rewrite filter_cons_True by exact E. cbn. lia.
      * apply Z.ltb_ge in E. rewrite filter_cons_False by lia. cbn. lia.
    + apply Forall_app. split; [exact Hall|]. constructor; [|constructor]. lia.
Qed.

(** X13: the stockout count of a result is the number of its records with
    unmet demand, so it lies between 0 and the number of days; and in every
    record the units missed are not negative, the units sold do not exceed
    the demand, and either the whole demand was met or the shelf was left
    empty. *)
Theorem stockout_days_counted self db product_id store_id days (g : Gen) r self' g' :
  simulate_policy random standard_normal self db product_id store_id days g
  = (SimResult r, self', g') ->
  Sim.stockout_days r
  = Z.of_nat (length (filter (fun d => 0 < Day.missed d) (Sim.daily_results r))) /\
  0 <= Sim.stockout_days r <= Z.of_nat (Z.to_nat days) /\
  Forall (fun d => 0 <= Day.missed d /\ Day.sold d <= Day.demand d /\
                   (Day.missed d = 0 \/ Day.stock d = 0))
         (Sim.daily_results r).
Proof.
  intros Hsim.
  destruct (pricing_supplier db product_id) as [pc|] eqn:Hp;
    [|rewrite (simulate_policy_no_pricing Gen random standard_normal _ _ _ _ _ _ Hp) in Hsim;
      discriminate].
  destruct (simulate_policy_loop self db product_id store_id days g)
    as (R & cs & g0 & _ & _ & Hr); [congruence|].
  rewrite Hsim in Hr. cbn in Hr. destruct (Hr r eq_refl) as (Hres & _ & Hso).
  destruct (loop_stockouts R self cs g0 (Z.to_nat days)) as [Hn Hall].
  rewrite Hso, Hres. split; [exact Hn|]. split; [|exact Hall].
  rewrite Hn. split; [lia|].
  apply inj_le. etransitivity; [apply length_filter|].
  rewrite (loop_daily_results_length Gen random). lia.
Qed.

Lemma receive_delivery_position s :
  let s1 := receive_delivery s in
  Loop.stock s1 + Loop.pending_delivery s1 = Loop.stock s + Loop.pending_delivery s /\
  (Loop.pending_delivery s1 = Loop.pending_delivery s \/ Loop.pending_delivery s1 = 0) /\
  (0 <= Loop.days_to_delivery s ->
   (Loop.days_to_delivery s = 0 -> Loop.pending_delivery s = 0) ->
   Loop.days_to_delivery s1 = 0 -> Loop.pending_delivery s1 = 0).
Proof.
  unfold receive_delivery.
  destruct (0 <? Loop.days_to_delivery s) eqn:E; cbn; [|apply Z.ltb_ge in E; auto with lia].
  apply Z.ltb_lt in E.
  destruct (Loop.days_to_delivery s - 1 =? 0) eqn:E1; cbn; [auto with lia|].
  apply Z.eqb_neq in E1. repeat split; auto; lia.
Qed.

(** X14: the units of a run are accounted for.  With a lead time of at
    least one day, at the start of every day the stock, the order in
    transit and the units sold so far add up to the starting stock and the
    units ordered so far: no order is lost and none is delivered twice. *)
Theorem run_units_accounted self db product_id store_id days (g : Gen)
    R current_stock g0 k :
  prepare standard_normal db product_id store_id days g = Some (R, current_stock, g0) ->
  1 <= default 7 (min_lead_time db product_id) ->
  (k <= Z.to_nat days)%nat ->
  let s := loop_state random R self current_stock g0 k in
  Loop.stock s + Loop.pending_delivery s + Zsum (Day.sold <$> Loop.daily_results s)
  = default 50 (inventory db product_id store_id)
    + Zsum (Day.ordered <$> Loop.daily_results s).
Proof.
  intros Hprep HL _.
  apply (prepare_run Gen standard_normal) in Hprep as (HR & Hcs & _).
  rewrite <- HR in HL. rewrite <- Hcs.
  cut (let s := loop_state random R self current_stock g0 k in
       (0 <= Loop.days_to_delivery s /\
        (Loop.days_to_delivery s = 0 -> Loop.pending_delivery s = 0)) /\
       Loop.stock s + Loop.pending_delivery s + Zsum (Day.sold <$> Loop.daily_results s)
       = current_stock + Zsum (Day.ordered <$> Loop.daily_results s));
    [intros [_ H]; exact H|].
  apply (loop_invariant Gen random
           (fun s => (0 <= Loop.days_to_delivery s /\
                      (Loop.days_to_delivery s = 0 -> Loop.pending_delivery s = 0)) /\
                     Loop.stock s + Loop.pending_delivery s
                     + Zsum (Day.sold <$> Loop.daily_results s)
                     = current_stock + Zsum (Day.ordered <$> Loop.daily_results s))).
  - cbn. split; [split; [lia|reflexivity]|lia].
  - intros j s gk [[H0 Hp] Hacc].
    destruct (simulate_day_spec Gen random R j s gk)
      as (r & Hres & _ & _ & _ & Hst & Hst' & Hd).
    destruct (receive_delivery_position s) as (Hsum & _ & Hnone).
    specialize (Hnone H0 Hp).
    assert (H1 : 0 <= Loop.days_to_delivery (receive_delivery s)).
    { unfold receive_delivery. repeat case_match; cbn; lia. }
    rewrite Hres, !Zsum_fmap_snoc.
    destruct Hd as [(_ & Hz & Hdd & Hpd & _)|(_ & Ho & Hdd & Hpd & _)].
    + specialize (Hnone Hz). split; [rewrite Hdd; split; lia|]. lia.
    + split; [rewrite Hdd, Hpd; split; [lia|exact Hnone]|]. lia.
Qed.

Lemma prepare_ids db product_id store_id days (g : Gen) R current_stock g0 :
  prepare standard_normal db product_id store_id days g = Some (R, current_stock, g0) ->
  Run.db R = db /\ Run.product_id R = product_id /\ Run.store_id R = store_id.
Proof.
  unfold prepare. intros H.
  destruct (pricing_supplier db product_id) as [[price cost]|]; [|discriminate].
  destruct (sim_demand_stats _) as [mean_demand std_demand].
  destruct (draw_daily_demand _ _ _ _ _ _) as [[daily_demand is_np] g1].
  injection H as <- <- <-. cbn. auto.
Qed.

(** X15: for a product with no sales row in the last thirty days the
    calculator returns the short dict on every simulated day, so every order
    the simulation places is for 0 units: the stock is never replenished,
    and the final stock is the starting stock less the units sold. *)
Theorem no_recent_sales_orders_nothing self db product_id store_id days (g : Gen)
    r self' g' :
  sales_last_30_days db product_id store_id = [] ->
  simulate_policy random standard_normal self db product_id store_id days g
  = (SimResult r, self', g') ->
  Forall (fun d => Day.ordered d = 0) (Sim.daily_results r) /\
  Sim.final_stock r + Zsum (Day.sold <$> Sim.daily_results r)
  = default 50 (inventory db product_id store_id).
Proof.
  intros Hsales Hsim.
  destruct (pricing_supplier db product_id) as [pc|] eqn:Hp;
    [|rewrite (simulate_policy_no_pricing Gen random standard_normal _ _ _ _ _ _ Hp) in Hsim;
      discriminate].
  destruct (simulate_policy_loop self db product_id store_id days g)
    as (R & cs & g0 & Hprep & _ & Hr); [congruence|].
  rewrite Hsim in Hr. cbn in Hr. destruct (Hr r eq_refl) as (-> & -> & _).
  destruct (prepare_ids _ _ _ _ _ _ _ _ Hprep) as (Hdb & Hpid & Hsid).
  apply (prepare_run Gen standard_normal) in Hprep as (_ & Hcs & _). rewrite <- Hcs.
  cut (let s := loop_state random R self cs g0 (Z.to_nat days) in
       Loop.pending_delivery s = 0 /\
       Forall (fun d => Day.ordered d = 0) (Loop.daily_results s) /\
       Loop.stock s + Zsum (Day.sold <$> Loop.daily_results s) = cs);
    [intros (_ & H1 & H2); split; assumption|].
  apply (loop_invariant Gen random
           (fun s => Loop.pending_delivery s = 0 /\
                     Forall (fun d => Day.ordered d = 0) (Loop.daily_results s) /\
                     Loop.stock s + Zsum (Day.sold <$> Loop.daily_results s) = cs)).
  - cbn. repeat split; [constructor|lia].
  - intros j s gk (Hpend & Hall & Hacc).
    destruct (simulate_day_both R j s gk)
      as (r0 & -> & _ & _ & Hst & -> & _ & Hord & Hp').
    destruct (receive_delivery_position s) as (Hsum & Hp1 & _).
    assert (Hq : Day.ordered r0 = 0).
    { destruct Hord as [H|H]; [exact H|]. rewrite H.
      unfold calculate_optimal_order_quantity. rewrite Hdb, Hpid, Hsid, Hsales.
      destruct (pricing_supplier db product_id) as [[price cost]|]; reflexivity. }
    assert (Hpend1 : Loop.pending_delivery (receive_delivery s) = 0)
      by (destruct Hp1 as [->| ->]; auto).
    split; [destruct Hp' as [[_ ->]|[_ ->]]; auto|].
    split; [apply Forall_app; split; [exact Hall|constructor; [exact Hq|constructor]]|].
    rewrite Zsum_fmap_snoc. lia.
Qed.

(** X16: a horizon of zero days or less simulates nothing.  The table and
    the generator are left as they were, and a result has no record, no
    stockout day, and the starting stock as its final stock. *)
Theorem empty_horizon self db product_id store_id days (g : Gen) :
  days <= 0 ->
  let outcome := simulate_policy random standard_normal self db product_id store_id days g in
  snd (fst outcome) = self /\
  snd outcome = g /\
  forall r, fst (fst outcome) = SimResult r ->
    Sim.daily_results r = [] /\
    Sim.stockout_days r = 0 /\
    Sim.final_stock r = default 50 (inventory db product_id store_id).
Proof.
  intros Hdays. cbv zeta. unfold simulate_policy, prepare.
  destruct (pricing_supplier db product_id) as [[price cost]|];
    [|cbn; repeat split; discriminate].
  destruct (sim_demand_stats _) as [m sd]. unfold draw_daily_demand.
  replace (days <=? Z.of_nat (length (sales_latest_30 db product_id store_id)))
    with true by (symmetry; apply Z.leb_le; lia).
  replace (Z.to_nat days) with 0%nat by lia. cbn [run_days].
  unfold finish, Py.bind.
  repeat case_match; cbn in *; simplify_eq; cbn; repeat split; intros; simplify_eq; reflexivity.
Qed.

(** X17: the error object for missing data is returned exactly when the
    product has no pricing/supplier row, and then neither the table nor the
    generator is touched; the three queries that follow (sales, stock, lead
    time) never produce it. *)
Theorem missing_data_error self db product_id store_id days (g : Gen) :
  let outcome := simulate_policy random standard_normal self db product_id store_id days g in
  (fst (fst outcome) = SimError "No pricing or supplier data available"
   <-> pricing_supplier db product_id = None) /\
  (pricing_supplier db product_id = None -> snd (fst outcome) = self /\ snd outcome = g).
Proof.
  cbv zeta. split.
  - split.
    + intros Hout. destruct (pricing_supplier db product_id) as [pc|] eqn:Hp; [|reflexivity].
      exfalso. revert Hout. unfold simulate_policy, prepare. rewrite Hp.
      destruct pc as [price cost].
      destruct (sim_demand_stats _) as [m sd].
      destruct (draw_daily_demand _ _ _ _ _ _) as [[dd np] g1].
      destruct (run_days _ _ _ _ _) as [s gn].
      destruct (finish _ _ _) as [res|msg]; cbn; discriminate.
    + intros Hp. rewrite (simulate_policy_no_pricing Gen random standard_normal _ _ _ _ _ _ Hp).
      reflexivity.
  - intros Hp. rewrite (simulate_policy_no_pricing Gen random standard_normal _ _ _ _ _ _ Hp).
    split; reflexivity.
Qed.

End RunProperties.
